(** * List-view controllers of saatchi_customized_accrued_revenue

    A shallow embedding of the two client-side controllers of the module:

    - [SaatchiAccruedRevenueListController.OnTestClick]
      (static/src/js/sync_js_button.js): confirm, call the server, branch on
      the shape of the result, notify, refresh;
    - [UnfoldAllListController.onUnfoldAllClick] and [onFoldAllClick]:
      click every folded (resp. unfolded) group header of the rendered list.

    The controllers are glue between host services, so the embedding has three
    layers: the ECMAScript values and coercions the branch conditions rely on
    ([Js]), the services as an event trace with the host's replies
    ([SyncButton]), and the rendered document as a forest of elements
    ([FoldButtons]). *)

From Stdlib Require Import ZArith NArith List String Ascii Bool Lia DecimalString FinFun.
From Stdlib Require Import Sorted.
Import ListNotations.

Set Warnings "-register-all".

Local Open Scope list_scope.
Local Open Scope string_scope.

(* ================================================================== *)
(** ** ECMAScript values and the coercions used by the controllers *)
(* ================================================================== *)

Module Js.

(** What [orm.call] can resolve to: the JSON-RPC layer hands over the parsed
    [result] member of the reply, so a value is a JSON value ([undefined] is
    kept for absent properties).  The procedure reports a count of records:
    Numbers are modelled on the integers, where [`${n}`] is the decimal
    numeral (exact on the safe integers, see [MAX_SAFE_INTEGER]).  Strings
    are sequences of 8-bit code units.  An object is the list of its own
    properties; the first binding of a key is the property's value. *)
Inductive Value : Type :=
| VUndefined
| VNull
| VBool (b : bool)
| VNum (n : Z)
| VStr (s : string)
| VArr (elements : list Value)
| VObj (properties : list (string * Value)).

(** What a [throw] or a rejected promise carries. *)
Inductive Thrown : Type :=
| TypeError (message : string)
| Rejection (reason : Value).

(** Completion records: a normal value or an abrupt [throw]. *)
Inductive Completion (A : Type) : Type :=
| Normal (a : A)
| Throw (e : Thrown).
Arguments Normal {A} a.
Arguments Throw {A} e.

Definition bindC {A B} (c : Completion A) (k : A -> Completion B) : Completion B :=
  match c with
  | Normal a => k a
  | Throw e => Throw e
  end.

Definition MAX_SAFE_INTEGER : Z := 2 ^ 53 - 1.

(** [OrdinaryGetOwnProperty] on the property list. *)
Fixpoint GetOwnProperty (properties : list (string * Value)) (key : string) : option Value :=
  match properties with
  | [] => None
  | (k, v) :: rest => if String.eqb k key then Some v else GetOwnProperty rest key
  end.

Definition HasOwnProperty (properties : list (string * Value)) (key : string) : bool :=
  match GetOwnProperty properties key with
  | Some _ => true
  | None => false
  end.

(** [ToBoolean]: the falsy values are [undefined], [null], [false], [0]
    and the empty string. *)
Definition ToBoolean (v : Value) : bool :=
  match v with
  | VUndefined | VNull => false
  | VBool b => b
  | VNum n => negb (n =? 0)%Z
  | VStr s => negb (String.eqb s "")
  | VArr _ | VObj _ => true
  end.

(** [v.type] for a [v] that is neither [undefined] nor [null] (the only
    property the controller reads).  An object yields its own property;
    nothing on [Object.prototype], [Array.prototype] or the wrapper
    prototypes of strings, numbers and booleans is named [type]. *)
Definition Get_type (v : Value) : Value :=
  match v with
  | VObj properties =>
      match GetOwnProperty properties "type" with
      | Some t => t
      | None => VUndefined
      end
  | _ => VUndefined
  end.

(** [Number::toString] on an integer-valued Number: the decimal numeral.
    This is what JavaScript prints up to [MAX_SAFE_INTEGER] in absolute
    value; above it the runtime prints the shortest digits that round to
    the same binary64 value, which this numeral is not. *)
Definition NumberToString (n : Z) : string :=
  NilZero.string_of_int (Z.to_int n).

(** [ToString].  [Array.prototype.join] turns [undefined] and [null]
    elements into the empty string and converts the others in order.  A
    plain object goes through [OrdinaryToPrimitive]: an own [toString]
    parsed from JSON is never callable and hides
    [Object.prototype.toString], and [valueOf] (own: not callable,
    inherited: returns the object) yields no primitive, so the conversion
    throws a [TypeError]; otherwise the inherited [toString] answers. *)
Fixpoint ToString (v : Value) : Completion string :=
  match v with
  | VUndefined => Normal "undefined"
  | VNull => Normal "null"
  | VBool true => Normal "true"
  | VBool false => Normal "false"
  | VNum n => Normal (NumberToString n)
  | VStr s => Normal s
  | VArr elements =>
      (fix join (l : list Value) : Completion string :=
         match l with
         | [] => Normal ""
         | x :: rest =>
             bindC (match x with
                    | VUndefined | VNull => Normal ""
                    | _ => ToString x
                    end)
                   (fun s =>
                      match rest with
                      | [] => Normal s
                      | _ :: _ => bindC (join rest) (fun r => Normal (s ++ "," ++ r))
                      end)
         end) elements
  | VObj properties =>
      if HasOwnProperty properties "toString"
      then Throw (TypeError "Cannot convert object to primitive value")
      else Normal "[object Object]"
  end.

(** [ToPrimitive] with hint number.  For arrays and plain objects
    [valueOf] gives no primitive (see [ToString]), so the result is that
    of [toString]. *)
Definition ToPrimitive (v : Value) : Completion Value :=
  match v with
  | VArr _ | VObj _ => bindC (ToString v) (fun s => Normal (VStr s))
  | _ => Normal v
  end.

(** *** Numeric coercion for [result > 0] *)

(** The value a numeric string designates, before it is rounded to a
    binary64 Number: NaN, an infinity, or [(-1)^negative * digits * 10^exp10]
    (the sign is kept for the zeros). *)
Inductive Number : Type :=
| NaN
| Infinity (negative : bool)
| Finite (negative : bool) (digits : N) (exp10 : Z).

Definition NumberOfZ (n : Z) : Number :=
  Finite (n <? 0)%Z (Z.abs_N n) 0.

(** [StrWhiteSpaceChar] among the 8-bit code units: TAB, LF, VT, FF, CR,
    SP and NBSP. *)
Definition StrWhiteSpaceChar (c : ascii) : bool :=
  let n := N_of_ascii c in
  ((9 <=? n) && (n <=? 13) || (n =? 32) || (n =? 160))%N.

Fixpoint skipWhiteSpace (l : list ascii) : list ascii :=
  match l with
  | c :: rest => if StrWhiteSpaceChar c then skipWhiteSpace rest else l
  | [] => []
  end.

Definition trimWhiteSpace (l : list ascii) : list ascii :=
  rev (skipWhiteSpace (rev (skipWhiteSpace l))).

(** The value of a digit character, up to hexadecimal. *)
Definition digitValue (c : ascii) : option N :=
  let n := N_of_ascii c in
  if ((48 <=? n) && (n <=? 57))%N then Some (n - 48)%N
  else if ((97 <=? n) && (n <=? 102))%N then Some (n - 87)%N
  else if ((65 <=? n) && (n <=? 70))%N then Some (n - 55)%N
  else None.

(** The longest prefix of digits of the given radix, and what follows. *)
Fixpoint spanDigits (radix : N) (l : list ascii) : list N * list ascii :=
  match l with
  | [] => ([], [])
  | c :: rest =>
      match digitValue c with
      | Some d =>
          if (d <? radix)%N
          then let (ds, tl) := spanDigits radix rest in (d :: ds, tl)
          else ([], l)
      | None => ([], l)
      end
  end.

Definition digitsValue (radix : N) (ds : list N) : N :=
  fold_left (fun acc d => (acc * radix + d)%N) ds 0%N.

(** [NonDecimalIntegerLiteral] after its two-character prefix: one digit
    or more, and nothing else. *)
Definition nonDecimalLiteral (radix : N) (l : list ascii) : Number :=
  match spanDigits radix l with
  | ((_ :: _) as ds, []) => Finite false (digitsValue radix ds) 0
  | _ => NaN
  end.

(** [ExponentPart], when the literal has one: [e] or [E], an optional
    sign, one digit or more, up to the end of the string.  [None] is a
    syntax error. *)
Definition exponentPart (l : list ascii) : option Z :=
  match l with
  | [] => Some 0%Z
  | c :: rest =>
      if (Ascii.eqb c "e" || Ascii.eqb c "E")%bool then
        let (neg, rest') :=
          match rest with
          | s :: r => if Ascii.eqb s "-" then (true, r)
                      else if Ascii.eqb s "+" then (false, r)
                      else (false, rest)
          | [] => (false, rest)
          end in
        match spanDigits 10 rest' with
        | ((_ :: _) as ds, []) =>
            let e := Z.of_N (digitsValue 10 ds) in
            Some (if neg then (- e)%Z else e)
        | _ => None
        end
      else None
  end.

(** [StrUnsignedDecimalLiteral]: [Infinity], or digits with an optional
    fraction and exponent; a digit is required before or after the dot. *)
Definition unsignedDecimalLiteral (negative : bool) (l : list ascii) : Number :=
  if String.eqb (string_of_list_ascii l) "Infinity" then Infinity negative
  else
    let (int, after_int) := spanDigits 10 l in
    let (frac, after_frac) :=
      match after_int with
      | c :: rest => if Ascii.eqb c "." then spanDigits 10 rest else ([], after_int)
      | [] => ([], after_int)
      end in
    match int, frac with
    | [], [] => NaN
    | _, _ =>
        match exponentPart after_frac with
        | Some e =>
            Finite negative (digitsValue 10 (int ++ frac)%list)
                   (e - Z.of_nat (List.length frac))
        | None => NaN
        end
    end.

(** [StringToNumber]: the value of the string read as a
    [StringNumericLiteral]; NaN when it is not one.  The empty and the
    blank strings are [+0]. *)
Definition StringToNumber (s : string) : Number :=
  match trimWhiteSpace (list_ascii_of_string s) with
  | [] => Finite false 0 0
  | (c :: rest) as l =>
      if Ascii.eqb c "-" then unsignedDecimalLiteral true rest
      else if Ascii.eqb c "+" then unsignedDecimalLiteral false rest
      else
        match l with
        | z :: x :: digits =>
            if Ascii.eqb z "0" then
              if (Ascii.eqb x "x" || Ascii.eqb x "X")%bool then nonDecimalLiteral 16 digits
              else if (Ascii.eqb x "o" || Ascii.eqb x "O")%bool then nonDecimalLiteral 8 digits
              else if (Ascii.eqb x "b" || Ascii.eqb x "B")%bool then nonDecimalLiteral 2 digits
              else unsignedDecimalLiteral false l
            else unsignedDecimalLiteral false l
        | _ => unsignedDecimalLiteral false l
        end
  end.

(** [ToNumber] on a primitive value. *)
Definition ToNumber (p : Value) : Number :=
  match p with
  | VUndefined => NaN
  | VNull => Finite false 0 0
  | VBool true => Finite false 1 0
  | VBool false => Finite false 0 0
  | VNum n => NumberOfZ n
  | VStr s => StringToNumber s
  | VArr _ | VObj _ => NaN
  end.

(** Whether [digits * 10^exp10] rounds to the Number zero: it is zero, or
    it is at most [2^-1075], half the least positive binary64 value (the
    tie goes to the even neighbour, zero). *)
Definition roundsToZero (digits : N) (exp10 : Z) : bool :=
  ((digits =? 0)%N
   || (exp10 <? 0)%Z && (Z.of_N digits * 2 ^ 1075 <=? 10 ^ (- exp10))%Z)%bool.

(** [0 < n] on Numbers, as [Number::lessThan] decides it: false for NaN. *)
Definition Number_isPositive (n : Number) : bool :=
  match n with
  | NaN => false
  | Infinity negative => negb negative
  | Finite negative digits exp10 => negb negative && negb (roundsToZero digits exp10)
  end.

(** [v > 0]: [IsLessThan(0, v)] with the right operand a Number, so the
    left one is made primitive (hint number) and then numeric; an
    undefined comparison (NaN) is [false]. *)
Definition GreaterThanZero (v : Value) : Completion bool :=
  bindC (ToPrimitive v) (fun p => Normal (Number_isPositive (ToNumber p))).

(** [`${v}`] inside a template literal. *)
Definition TemplateSubstitution (v : Value) : Completion string := ToString v.

End Js.

Import Js.


(* ================================================================== *)
(** ** sync_js_button.js: the sync button of the accrued-revenue list *)
(* ================================================================== *)

Module SyncButton.

(** The calls the controller makes on the services acquired in [setup]
    and on its base class, in the order they are made. *)
Inductive Event : Type :=
| DialogAdd (title body : string)
| OrmCall (model method : string) (args : list Value)
| DoAction (action : Value)
| NotificationAdd (message : string) (type title : string)
| RootLoad
| Render (deep : bool).

(** The button the user presses in the confirmation dialog. *)
Inductive Choice : Type := Confirm | Cancel.

(** The host's side of one click: the user's answer and how each awaited
    promise settles. *)
Record Host : Type := {
  choice : Choice;
  orm_reply : string -> string -> list Value -> Completion Value;
  doAction_reply : Value -> Completion unit;
  load_reply : Completion unit
}.

(** Controller code: reads the host, appends to the trace, completes
    normally or abruptly. *)
Definition M (A : Type) : Type := Host -> list Event -> list Event * Completion A.

Definition ret {A} (a : A) : M A := fun _ tr => (tr, Normal a).

Definition bind {A B} (m : M A) (k : A -> M B) : M B :=
  fun h tr =>
    match m h tr with
    | (tr', Normal a) => k a h tr'
    | (tr', Throw e) => (tr', Throw e)
    end.

(** A service call: logged, then settled by the host. *)
Definition call {A} (ev : Event) (reply : Host -> Completion A) : M A :=
  fun h tr => ((tr ++ [ev])%list, reply h).

(** An ECMAScript operation that may throw. *)
Definition lift {A} (c : Completion A) : M A := fun _ tr => (tr, c).

Declare Scope js_scope.
Delimit Scope js_scope with js.
Notation "x <- c ;; k" := (bind c (fun x => k))
  (at level 61, c at next level, right associativity) : js_scope.
Notation "c ;; k" := (bind c (fun _ => k))
  (at level 61, right associativity) : js_scope.
Local Open Scope js_scope.

(** [await this.orm.call(model, method, args)] *)
Definition orm_call (model method : string) (args : list Value) : M Value :=
  call (OrmCall model method args) (fun h => orm_reply h model method args).

(** [await this.actionService.doAction(action)] *)
Definition actionService_doAction (action : Value) : M unit :=
  call (DoAction action) (fun h => doAction_reply h action).

(** [this.notification.add(message, { type, title })] *)
Definition notification_add (message type title : string) : M unit :=
  call (NotificationAdd message type title) (fun _ => Normal tt).

(** [await this.model.root.load()] *)
Definition model_root_load : M unit :=
  call RootLoad load_reply.

(** [this.render(deep)] *)
Definition render (deep : bool) : M unit :=
  call (Render deep) (fun _ => Normal tt).

(** The props handed to [ConfirmationDialog]. *)
Record ConfirmationDialogProps : Type := {
  title : string;
  body : string;
  confirm : M unit;
  cancel : M unit
}.

(** [this.dialogService.add(ConfirmationDialog, props)]: the dialog is
    shown and runs the callback of the button the user presses. *)
Definition dialogService_add (props : ConfirmationDialogProps) : M unit :=
  call (DialogAdd (title props) (body props)) (fun _ => Normal tt) ;;
  fun h => match choice h with
           | Confirm => confirm props h
           | Cancel => cancel props h
           end.

(** [result && result.type] *)
Definition result_and_type (result : Value) : Value :=
  if ToBoolean result then Get_type result else result.

(** The [confirm] callback of the dialog. *)
Definition OnTestClick_confirm : M unit :=
  result <- orm_call "saatchi.accrued_revenue" "sync_new_records_for_accrual"
                     [VArr []] ;;
  (if ToBoolean (result_and_type result) then
     actionService_doAction result
   else
     positive <- lift (GreaterThanZero result) ;;
     if positive : bool then
       count <- lift (TemplateSubstitution result) ;;
       notification_add ("Successfully created " ++ count ++ " new draft for accrual.")
                        "success" "Success!"
     else
       notification_add "No new records were created for accrual."
                        "info" "Info") ;;
  model_root_load ;;
  render true.

(** The [cancel] callback of the dialog: its body is empty. *)
Definition OnTestClick_cancel : M unit := ret tt.

Definition OnTestClick : M unit :=
  dialogService_add {|
    title := "Confirm Action";
    body := "Are you sure you want to sync new records for accrual? This will process all eligible sale orders.";
    confirm := OnTestClick_confirm;
    cancel := OnTestClick_cancel
  |}.

(** One click on the button, from an empty trace: the calls made, and the
    completion of the callback the dialog ran. *)
Definition run (h : Host) : list Event * Completion unit := OnTestClick h [].

(** Observations on a trace. *)
Definition isOrmCall (ev : Event) : bool :=
  match ev with OrmCall _ _ _ => true | _ => false end.
Definition isDoAction (ev : Event) : bool :=
  match ev with DoAction _ => true | _ => false end.
Definition isNotification (ev : Event) : bool :=
  match ev with NotificationAdd _ _ _ => true | _ => false end.
Definition isRefresh (ev : Event) : bool :=
  match ev with RootLoad | Render _ => true | _ => false end.

(** The confirmation dialog as the user sees it. *)
Definition prompt : Event :=
  DialogAdd "Confirm Action"
            "Are you sure you want to sync new records for accrual? This will process all eligible sale orders.".

(** The remote call of the [confirm] callback. *)
Definition sync_call : Event :=
  OrmCall "saatchi.accrued_revenue" "sync_new_records_for_accrual" [VArr []].

(** The two notifications. *)
Definition success_notification (count : string) : Event :=
  NotificationAdd ("Successfully created " ++ count ++ " new draft for accrual.")
                  "success" "Success!".

Definition info_notification : Event :=
  NotificationAdd "No new records were created for accrual." "info" "Info".

(** What the refresh at the end of the callback adds to a trace [tr]: the
    reload, and the forced re-render once the reload has resolved. *)
Definition refreshed (h : Host) (tr : list Event) : list Event * Completion unit :=
  match load_reply h with
  | Normal _ => ((tr ++ [RootLoad; Render true])%list, Normal tt)
  | Throw e => ((tr ++ [RootLoad])%list, Throw e)
  end.

(** A host whose user confirms, whose server answers [result], and whose
    other promises resolve. *)
Definition answering (result : Value) : Host := {|
  choice := Confirm;
  orm_reply := fun _ _ _ => Normal result;
  doAction_reply := fun _ => Normal tt;
  load_reply := Normal tt
|}.

(** A host whose user cancels. *)
Definition cancelling : Host := {|
  choice := Cancel;
  orm_reply := fun _ _ _ => Normal (VNum 1);
  doAction_reply := fun _ => Normal tt;
  load_reply := Normal tt
|}.

(** A host whose user confirms and whose remote call is rejected with [e]. *)
Definition rejecting (e : Thrown) : Host := {|
  choice := Confirm;
  orm_reply := fun _ _ _ => Throw e;
  doAction_reply := fun _ => Normal tt;
  load_reply := Normal tt
|}.

End SyncButton.

(* ================================================================== *)
(** ** The fold-all and unfold-all buttons of the journal-items list *)
(* ================================================================== *)

Module FoldButtons.

(** A rendered element: its class list and its child elements, in
    document order.  Only classes are kept, as the selectors of the
    controller test nothing else. *)
Inductive Element : Type :=
| Elem (classList : list string) (children : list Element).

Definition classList (e : Element) : list string :=
  match e with Elem cl _ => cl end.

Definition children (e : Element) : list Element :=
  match e with Elem _ cs => cs end.

(** The document is the forest of its top-level elements. *)
Definition Document : Type := list Element.

(** Two elements with the same markup are still two nodes: a node is
    designated by the child indices that lead to it from the document. *)
Definition Path : Type := list nat.
Definition Node : Type := (Path * Element)%type.

(** The element at [p] and its descendants, in document order. *)
Fixpoint subtree (p : Path) (e : Element) : list Node :=
  (p, e) ::
  match e with
  | Elem _ cs =>
      (fix forest (i : nat) (l : list Element) : list Node :=
         match l with
         | [] => []
         | c :: l' => (subtree (p ++ [i]) c ++ forest (S i) l')%list
         end) 0%nat cs
  end.

(** The nodes under the children [l] of the node at [p], the first child
    having index [i]. *)
Fixpoint forest (p : Path) (i : nat) (l : list Element) : list Node :=
  match l with
  | [] => []
  | c :: l' => (subtree (p ++ [i]) c ++ forest p (S i) l')%list
  end.

(** A compound selector [.c1.c2...]: every class must be present. *)
Definition Selector : Type := list string.

Definition matches (sel : Selector) (e : Element) : bool :=
  forallb (fun c => existsb (String.eqb c) (classList e)) sel.

(** [document.querySelectorAll(sel)]: the matching elements of the
    document, in document order. *)
Definition document_querySelectorAll (sel : Selector) (doc : Document) : list Node :=
  filter (fun n => matches sel (snd n)) (forest [] 0 doc).

(** [element.querySelector(sel)]: the first matching descendant, or
    [null]. *)
Definition querySelector (sel : Selector) (n : Node) : option Node :=
  hd_error (filter (fun d => matches sel (snd d)) (forest (fst n) 0 (children (snd n)))).

(** Truthiness of what [querySelector] returns: an element is truthy,
    [null] is not. *)
Definition truthy (r : option Node) : bool :=
  match r with Some _ => true | None => false end.

(** The only effect of the controller: a click dispatched on a node. *)
Inductive DomEvent : Type :=
| Click (target : Path).

(** [headers.forEach(header => header.click())].  The list of headers is
    complete before the first click is dispatched, so the targets do not
    depend on what the host's click handlers do. *)
Definition forEach_click (headers : list Node) : list DomEvent :=
  map (fun header => Click (fst header)) headers.

Definition onUnfoldAllClick (doc : Document) : list DomEvent :=
  let groupHeaders :=
    document_querySelectorAll ["o_group_header"; "o_group_has_content"] doc in
  let foldedHeaders :=
    filter (fun header => truthy (querySelector ["fa-caret-right"] header)) groupHeaders in
  forEach_click foldedHeaders.

Definition onFoldAllClick (doc : Document) : list DomEvent :=
  let groupHeaders :=
    document_querySelectorAll ["o_group_header"; "o_group_has_content"] doc in
  let unfoldedHeaders :=
    filter (fun header => truthy (querySelector ["fa-caret-down"] header)) groupHeaders in
  forEach_click unfoldedHeaders.

(** *** Reading the document *)

(** The element a path designates in a forest, if any. *)
Fixpoint node_at (f : list Element) (p : Path) : option Element :=
  match p with
  | [] => None
  | i :: q =>
      match nth_error f i with
      | None => None
      | Some e =>
          match q with
          | [] => Some e
          | _ :: _ => node_at (children e) q
          end
      end
  end.

Definition has_class (c : string) (e : Element) : Prop := In c (classList e).

(** [e] has a descendant element of class [c]. *)
Definition contains_class (c : string) (e : Element) : Prop :=
  exists q d, node_at (children e) q = Some d /\ has_class c d.

(** A group header that has content: what both buttons start from. *)
Definition group_header_with_content (e : Element) : Prop :=
  has_class "o_group_header" e /\ has_class "o_group_has_content" e.

(** The node at [p] is a group header with content that shows the given
    caret: [fa-caret-right] on a folded group, [fa-caret-down] on an
    unfolded one. *)
Definition header_showing (caret : string) (doc : Document) (p : Path) : Prop :=
  exists e, node_at doc p = Some e /\ group_header_with_content e /\ contains_class caret e.

Definition folded_header : Document -> Path -> Prop := header_showing "fa-caret-right".
Definition unfolded_header : Document -> Path -> Prop := header_showing "fa-caret-down".

(** No group header shows both carets. *)
Definition carets_exclusive (doc : Document) : Prop :=
  forall p e, node_at doc p = Some e -> has_class "o_group_header" e ->
              ~ (contains_class "fa-caret-right" e /\ contains_class "fa-caret-down" e).

(** The same, decided by running the selectors on every node. *)
Definition carets_exclusiveb (doc : Document) : bool :=
  forallb (fun n => negb (matches ["o_group_header"] (snd n))
                    || negb (truthy (querySelector ["fa-caret-right"] n)
                             && truthy (querySelector ["fa-caret-down"] n)))
          (forest [] 0 doc).

Definition DomEvent_eq_dec (a b : DomEvent) : {a = b} + {a <> b}.
Proof. decide equality. apply (list_eq_dec Nat.eq_dec). Defined.

(** How many clicks a run dispatched on the node at [p]. *)
Definition clicks_on (p : Path) (events : list DomEvent) : nat :=
  count_occ DomEvent_eq_dec events (Click p).

(** A rendered grouped list: a folded group, an unfolded one, a folded
    group without content, and a data row. *)
Definition rendered_list : Document :=
  let caret c := Elem ["o_group_name"] [Elem ["o_group_caret"; "fa"; c] []] in
  [Elem ["o_list_table"]
     [Elem ["o_group_header"; "o_group_has_content"] [caret "fa-caret-right"];
      Elem ["o_group_header"; "o_group_open"; "o_group_has_content"] [caret "fa-caret-down"];
      Elem ["o_group_header"] [caret "fa-caret-right"];
      Elem ["o_data_row"] []]].

End FoldButtons.

(* ================================================================== *)
(** ** Further observations on runs and on documents *)
(* ================================================================== *)

Module Observations.

Import SyncButton FoldButtons.

Definition isDialog (ev : Event) : bool :=
  match ev with DialogAdd _ _ => true | _ => false end.

Definition isRender (ev : Event) : bool :=
  match ev with Render _ => true | _ => false end.

(** A host whose user confirms, whose server answers [result], and whose
    reload is rejected with [e]. *)
Definition failing_reload (result : Value) (e : Thrown) : Host := {|
  choice := Confirm;
  orm_reply := fun _ _ _ => Normal result;
  doAction_reply := fun _ => Normal tt;
  load_reply := Throw e
|}.

(** The node a click was dispatched on. *)
Definition target (ev : DomEvent) : Path :=
  match ev with Click p => p end.

(** Document order on nodes: an element comes before its descendants, and
    everything under a child before everything under its later siblings. *)
Fixpoint precedes (p q : Path) : bool :=
  match p, q with
  | [], [] => false
  | [], _ :: _ => true
  | _ :: _, [] => false
  | i :: p', j :: q' => (i <? j)%nat || (i =? j)%nat && precedes p' q'
  end.

(** Every group header with content shows one caret, and one only. *)
Definition one_caret_each (doc : Document) : Prop :=
  forall p e, node_at doc p = Some e -> group_header_with_content e ->
              (contains_class "fa-caret-right" e \/ contains_class "fa-caret-down" e) /\
              ~ (contains_class "fa-caret-right" e /\ contains_class "fa-caret-down" e).

(** The same, decided by running the selectors on the headers. *)
Definition one_caret_eachb (doc : Document) : bool :=
  forallb (fun header => xorb (truthy (querySelector ["fa-caret-right"] header))
                              (truthy (querySelector ["fa-caret-down"] header)))
          (document_querySelectorAll ["o_group_header"; "o_group_has_content"] doc).

End Observations.

(* ================================================================== *)
(** ** The view descriptors the two files register *)
(* ================================================================== *)

Module ViewDescriptor.

Section Spread.

(** What the properties of a view descriptor hold (classes, templates,
    functions): nothing is done with them but copying. *)
Variable V : Type.

(** An object as the list of its own enumerable properties, in property
    order. *)
Definition Obj : Type := list (string * V).

Definition ownKeys (o : Obj) : list string := map fst o.

Fixpoint Get (o : Obj) (key : string) : option V :=
  match o with
  | [] => None
  | (k, v) :: rest => if String.eqb k key then Some v else Get rest key
  end.

(** [CreateDataProperty]: an existing property keeps its place and takes
    the new value, a new one is added last. *)
Fixpoint CreateDataProperty (o : Obj) (key : string) (v : V) : Obj :=
  match o with
  | [] => [(key, v)]
  | (k, v') :: rest =>
      if String.eqb k key then (k, v) :: rest
      else (k, v') :: CreateDataProperty rest key v
  end.

(** [CopyDataProperties]: the properties of [source] are set on [target]
    in order. *)
Definition CopyDataProperties (target source : Obj) : Obj :=
  fold_left (fun t kv => CreateDataProperty t (fst kv) (snd kv)) source target.

(** [{ ...listView, Controller: controller }], the object literal both
    files export: a fresh object receives the properties of [listView],
    then [Controller]. *)
Definition customListController (listView : Obj) (controller : V) : Obj :=
  CreateDataProperty (CopyDataProperties [] listView) "Controller" controller.

End Spread.

Arguments ownKeys {V} o.
Arguments Get {V} o key.
Arguments CreateDataProperty {V} o key v.
Arguments CopyDataProperties {V} target source.
Arguments customListController {V} listView controller.

(** A list-view descriptor, its properties named by what they hold. *)
Definition sample_listView : Obj string :=
  [("type", "list"); ("Controller", "ListController"); ("Renderer", "ListRenderer");
   ("buttonTemplate", "web.ListView.Buttons")].

End ViewDescriptor.

Import SyncButton FoldButtons Observations ViewDescriptor.

(* ================================================================== *)
(** ** The coercions at work *)
(* ================================================================== *)

(** Which strings denote a Number greater than zero. *)
Example StringToNumber_isPositive :
  map (fun s => Number_isPositive (StringToNumber s))
      ["5"; " 2.5e1 "; "0x1F"; "+Infinity"; ".5"; "5e-324";
       ""; "0"; "-5"; "five"; "5px"; "0x"; "1e-400"] =
  [true; true; true; true; true; true;
   false; false; false; false; false; false; false].
Proof. vm_compute. reflexivity. Qed.

(** [v > 0] on the shapes a JSON result can take. *)
Example GreaterThanZero_by_shape :
  map GreaterThanZero
      [VNum 5; VNum 0; VNum (-3); VNull; VBool false; VBool true; VStr "5";
       VArr [VNum 5]; VArr []; VArr [VNum 1; VNum 2]; VObj [];
       VObj [("valueOf", VNum 1)]; VObj [("toString", VNum 1)]] =
  [Normal true; Normal false; Normal false; Normal false; Normal false; Normal true;
   Normal true; Normal true; Normal false; Normal false; Normal false; Normal false;
   Throw (TypeError "Cannot convert object to primitive value")].
Proof. vm_compute. reflexivity. Qed.

(** [Array.prototype.join] inside [ToString]. *)
Example ToString_array :
  ToString (VArr [VNum 1; VNull; VStr "a"; VArr [VNum 2; VNum (-3)]; VObj []]) =
  Normal "1,,a,2,-3,[object Object]".
Proof. reflexivity. Qed.

(** The fold buttons on [rendered_list]: the folded header with content is
    the target of unfold, the unfolded one of fold, the header without
    content of neither. *)
Example fold_buttons_on_rendered_list :
  onUnfoldAllClick rendered_list = [Click [0; 0]%nat] /\
  onFoldAllClick rendered_list = [Click [0; 1]%nat] /\
  onUnfoldAllClick [] = [].
Proof. repeat split. Qed.

(* ================================================================== *)
(** ** Document order: what the traversal lists *)
(* ================================================================== *)

(** Induction on an element with the hypothesis for all its children. *)
Lemma Element_nested_ind (P : Element -> Prop) :
  (forall cl cs, Forall P cs -> P (Elem cl cs)) -> forall e, P e.
Proof.
  intros step. fix IH 1. intros [cl cs]. apply step.
  induction cs as [|c cs IHcs]; constructor; [apply IH | exact IHcs].
Qed.

Lemma subtree_unfold (p : Path) (e : Element) :
  subtree p e = (p, e) :: forest p 0 (children e).
Proof.
  destruct e as [cl cs]. simpl. f_equal.
  generalize 0%nat. induction cs as [|c cs IHcs]; intros i; simpl.
  - reflexivity.
  - now rewrite IHcs.
Qed.

Lemma node_at_here (c : Element) (l : list Element) (q : Path) :
  node_at (c :: l) (0%nat :: q) =
  match q with [] => Some c | _ :: _ => node_at (children c) q end.
Proof. reflexivity. Qed.

(** [subtree pre x] lists [x] at [pre] and its descendants below [pre]. *)
Local Notation "'subtree_lists'" := (fun x : Element =>
  forall (pre p : Path) (e : Element),
    In (p, e) (subtree pre x) <->
    (p = pre /\ e = x) \/
    exists q, p = (pre ++ q)%list /\ node_at (children x) q = Some e) (only parsing).

Lemma forest_lists (l : list Element) :
  Forall subtree_lists l ->
  forall (pre : Path) (i : nat) (p : Path) (e : Element),
    In (p, e) (forest pre i l) <->
    exists k q, p = (pre ++ (i + k)%nat :: q)%list /\ node_at l (k :: q) = Some e.
Proof.
  induction 1 as [|c l Hc _ IH]; intros pre i p e; simpl forest.
  - split; [intros [] | intros (k & q & _ & H)]. destruct k; discriminate.
  - cbv beta in Hc. rewrite in_app_iff, (Hc (pre ++ [i])%list p e), IH. split.
    + intros [[[-> ->] | (q & -> & Hq)] | (k & q & -> & Hq)].
      * exists 0%nat, []. now rewrite Nat.add_0_r.
      * exists 0%nat, q. rewrite Nat.add_0_r, <- app_assoc. split; [reflexivity|].
        rewrite node_at_here. destruct q; [discriminate | exact Hq].
      * exists (S k), q. rewrite Nat.add_succ_r. now split.
    + intros ([|k] & q & -> & Hq).
      * left. rewrite Nat.add_0_r. rewrite node_at_here in Hq. destruct q as [|j q].
        -- left. now inversion Hq.
        -- right. exists (j :: q). now rewrite <- app_assoc.
      * right. exists k, q. now rewrite Nat.add_succ_r.
Qed.

Lemma subtree_lists_all (x : Element) : subtree_lists x.
Proof.
  induction x as [cl cs IH] using Element_nested_ind.
  intros pre p e. rewrite subtree_unfold. simpl In. simpl children.
  rewrite (forest_lists cs IH). split.
  - intros [H | (k & q & -> & Hq)].
    + inversion H. now left.
    + right. now exists (k :: q).
  - intros [[-> ->] | (q & -> & Hq)].
    + now left.
    + right. destruct q as [|k q]; [discriminate|]. now exists k, q.
Qed.

Lemma In_forest_from (l : list Element) (pre : Path) (i : nat) (p : Path) (e : Element) :
  In (p, e) (forest pre i l) <->
  exists k q, p = (pre ++ (i + k)%nat :: q)%list /\ node_at l (k :: q) = Some e.
Proof.
  apply forest_lists, Forall_forall. intros; apply subtree_lists_all.
Qed.

(** [forest pre 0 l] lists exactly the nodes of [l], each under its path. *)
Lemma In_forest (l : list Element) (pre p : Path) (e : Element) :
  In (p, e) (forest pre 0 l) <-> exists q, p = (pre ++ q)%list /\ node_at l q = Some e.
Proof.
  rewrite In_forest_from. split.
  - intros (k & q & -> & H). now exists (k :: q).
  - intros ([|k q] & -> & H); [discriminate|]. now exists k, q.
Qed.

Lemma In_map_fst {A B} (a : A) (l : list (A * B)) :
  In a (map fst l) <-> exists b, In (a, b) l.
Proof.
  rewrite in_map_iff. split.
  - intros ([a' b] & <- & H). now exists b.
  - intros (b & H). now exists (a, b).
Qed.

Lemma NoDup_forest (l : list Element) :
  Forall (fun x => forall pre, NoDup (map fst (subtree pre x))) l ->
  forall (pre : Path) (i : nat), NoDup (map fst (forest pre i l)).
Proof.
  induction 1 as [|c l Hc _ IH]; intros pre i; simpl forest.
  - constructor.
  - rewrite map_app. apply NoDup_app; [apply Hc | apply IH |].
    intros p Hp Hp'. apply In_map_fst in Hp as (e & He), Hp' as (e' & He').
    apply subtree_lists_all in He. apply In_forest_from in He' as (k & q & -> & _).
    destruct He as [[He _] | (q' & He & _)].
    + apply app_inv_head in He. inversion He; lia.
    + rewrite <- app_assoc in He. apply app_inv_head in He. inversion He; lia.
Qed.

(** The traversal lists no node twice. *)
Lemma NoDup_subtree (x : Element) (pre : Path) : NoDup (map fst (subtree pre x)).
Proof.
  revert pre. induction x as [cl cs IH] using Element_nested_ind. intros pre.
  rewrite subtree_unfold. simpl. constructor; [| now apply NoDup_forest].
  intros Hp. apply In_map_fst in Hp as (e & He).
  apply In_forest_from in He as (k & q & He & _).
  rewrite <- (app_nil_r pre) in He at 1. apply app_inv_head in He. discriminate.
Qed.

Lemma NoDup_forest_all (l : list Element) (pre : Path) (i : nat) :
  NoDup (map fst (forest pre i l)).
Proof.
  apply NoDup_forest, Forall_forall. intros; apply NoDup_subtree.
Qed.

(* ================================================================== *)
(** ** Selectors and the clicks of the fold buttons *)
(* ================================================================== *)

Lemma matches_iff (sel : Selector) (e : Element) :
  matches sel e = true <-> forall c, In c sel -> has_class c e.
Proof.
  unfold matches, has_class. rewrite forallb_forall. split; intros H c Hc.
  - apply H in Hc. apply existsb_exists in Hc as (c' & Hin & Heq).
    apply String.eqb_eq in Heq. now subst.
  - apply existsb_exists. exists c. split; [now apply H | apply String.eqb_refl].
Qed.

Lemma hd_filter_truthy (f : Node -> bool) (l : list Node) :
  truthy (hd_error (filter f l)) = true <-> exists n, In n l /\ f n = true.
Proof.
  induction l as [|a l IH]; simpl.
  - split; [discriminate | now intros (n & [] & _)].
  - destruct (f a) eqn:Ha; simpl.
    + split; [now exists a; auto | reflexivity].
    + rewrite IH. split; intros (n & Hn & Hf); exists n.
      * now split; [right|].
      * destruct Hn as [-> | Hn]; [congruence | now split].
Qed.

(** [n.querySelector('.c')] is an element exactly when [n] has a descendant
    of class [c]. *)
Lemma querySelector_truthy (c : string) (p : Path) (e : Element) :
  truthy (querySelector [c] (p, e)) = true <-> contains_class c e.
Proof.
  unfold querySelector, contains_class. rewrite hd_filter_truthy. cbn [fst snd]. split.
  - intros ([q d] & Hin & Hm). apply In_forest in Hin as (q' & _ & Hq').
    exists q', d. split; [exact Hq' |]. cbn [snd] in Hm.
    apply (proj1 (matches_iff [c] d) Hm). now left.
  - intros (q & d & Hq & Hc). exists ((p ++ q)%list, d). split.
    + apply In_forest. now exists q.
    + apply matches_iff. intros c' [<- | []]. exact Hc.
Qed.

Lemma group_header_matches (e : Element) :
  matches ["o_group_header"; "o_group_has_content"] e = true <->
  group_header_with_content e.
Proof.
  rewrite matches_iff. unfold group_header_with_content. split.
  - intros H. split; apply H; simpl; auto.
  - intros [H1 H2] c [<- | [<- | []]]; assumption.
Qed.

(** The shape shared by the two handlers, for either caret: the targets are
    the headers with content that show the caret. *)
Lemma In_clicks (caret : string) (doc : Document) (p : Path) :
  In (Click p)
     (forEach_click
        (filter (fun header => truthy (querySelector [caret] header))
           (document_querySelectorAll ["o_group_header"; "o_group_has_content"] doc))) <->
  header_showing caret doc p.
Proof.
  unfold header_showing, forEach_click, document_querySelectorAll.
  rewrite in_map_iff. split.
  - intros ([p' e] & Hp & Hin). cbn [fst] in Hp. inversion Hp; subst p'.
    apply filter_In in Hin as [Hin Hq]. apply filter_In in Hin as [Hin Hm].
    apply In_forest in Hin as (q & -> & Hq'). cbn [fst snd app] in *.
    exists e. repeat split;
      [exact Hq' | now apply group_header_matches ..
       | now apply (querySelector_truthy caret q)].
  - intros (e & Hp & Hg & Hc). exists (p, e). split; [reflexivity |].
    apply filter_In. split; [apply filter_In; split |].
    + apply In_forest. now exists p.
    + now apply group_header_matches.
    + now apply querySelector_truthy.
Qed.

Lemma NoDup_map_filter {A B} (f : A -> B) (g : A -> bool) (l : list A) :
  NoDup (map f l) -> NoDup (map f (filter g l)).
Proof.
  induction l as [|a l IH]; simpl; intros H; [constructor |].
  inversion H as [|? ? Hn Hl]; subst. destruct (g a); simpl; [constructor |]; auto.
  intros Hin. apply Hn. apply in_map_iff in Hin as (x & <- & Hx).
  apply in_map. now apply filter_In in Hx as [Hx _].
Qed.

Lemma NoDup_clicks (caret : string) (doc : Document) :
  NoDup (forEach_click
           (filter (fun header => truthy (querySelector [caret] header))
              (document_querySelectorAll ["o_group_header"; "o_group_has_content"] doc))).
Proof.
  unfold forEach_click, document_querySelectorAll.
  rewrite <- (map_map fst Click).
  apply Injective_map_NoDup; [intros a b H; now inversion H |].
  do 2 apply NoDup_map_filter. apply NoDup_forest_all.
Qed.

Lemma In_onUnfoldAllClick (doc : Document) (p : Path) :
  In (Click p) (onUnfoldAllClick doc) <-> folded_header doc p.
Proof. apply In_clicks. Qed.

Lemma In_onFoldAllClick (doc : Document) (p : Path) :
  In (Click p) (onFoldAllClick doc) <-> unfolded_header doc p.
Proof. apply In_clicks. Qed.

(** One click on each target, none elsewhere. *)
Lemma clicks_on_NoDup (events : list DomEvent) (p : Path) :
  NoDup events ->
  (In (Click p) events -> clicks_on p events = 1%nat) /\
  (~ In (Click p) events -> clicks_on p events = 0%nat).
Proof.
  intros Hnd. unfold clicks_on. split.
  - now apply NoDup_count_occ'.
  - now apply count_occ_not_In.
Qed.

Lemma no_target_no_click (events : list DomEvent) :
  (forall p, ~ In (Click p) events) -> events = [].
Proof.
  destruct events as [|[p] l]; [reflexivity |].
  intros H. exfalso. apply (H p). now left.
Qed.

Lemma carets_exclusiveb_sound (doc : Document) :
  carets_exclusiveb doc = true -> carets_exclusive doc.
Proof.
  unfold carets_exclusiveb, carets_exclusive. rewrite forallb_forall.
  intros H p e Hp Hh [Hr Hd].
  assert (Hin : In (p, e) (forest [] 0 doc)) by (apply In_forest; now exists p).
  apply H in Hin. cbn [snd] in Hin.
  apply (querySelector_truthy _ p) in Hr, Hd. rewrite Hr, Hd in Hin.
  assert (Hm : matches ["o_group_header"] e = true)
    by (apply matches_iff; intros c [<- | []]; exact Hh).
  rewrite Hm in Hin. discriminate.
Qed.

(** C8. For every document and every node of it, [onUnfoldAllClick]
    dispatches exactly one click on the node when it is a group header
    with the content class that shows the collapsed caret, and none
    otherwise: none on a header that lacks the content class, none on a
    header that does not show the collapsed caret and, where headers show
    one caret at most, none on a header that shows the expanded caret.
    [onFoldAllClick] is the dual, with the expanded caret.  When no header
    qualifies, a handler dispatches nothing at all. *)
Theorem fold_buttons_click_each_target_once (doc : Document) (p : Path) :
  ((folded_header doc p -> clicks_on p (onUnfoldAllClick doc) = 1%nat) /\
   (~ folded_header doc p -> clicks_on p (onUnfoldAllClick doc) = 0%nat)) /\
  ((unfolded_header doc p -> clicks_on p (onFoldAllClick doc) = 1%nat) /\
   (~ unfolded_header doc p -> clicks_on p (onFoldAllClick doc) = 0%nat)) /\
  (forall e, node_at doc p = Some e ->
             ~ has_class "o_group_has_content" e \/ ~ contains_class "fa-caret-right" e ->
             clicks_on p (onUnfoldAllClick doc) = 0%nat) /\
  (forall e, node_at doc p = Some e ->
             ~ has_class "o_group_has_content" e \/ ~ contains_class "fa-caret-down" e ->
             clicks_on p (onFoldAllClick doc) = 0%nat) /\
  (carets_exclusive doc ->
   forall e, node_at doc p = Some e -> has_class "o_group_header" e ->
             (contains_class "fa-caret-down" e -> clicks_on p (onUnfoldAllClick doc) = 0%nat) /\
             (contains_class "fa-caret-right" e -> clicks_on p (onFoldAllClick doc) = 0%nat)) /\
  ((forall q, ~ folded_header doc q) -> onUnfoldAllClick doc = []) /\
  ((forall q, ~ unfolded_header doc q) -> onFoldAllClick doc = []).
Proof.
  pose proof (clicks_on_NoDup (onUnfoldAllClick doc) p (NoDup_clicks _ doc)) as [U1 U0].
  pose proof (clicks_on_NoDup (onFoldAllClick doc) p (NoDup_clicks _ doc)) as [F1 F0].
  rewrite In_onUnfoldAllClick in U1, U0. rewrite In_onFoldAllClick in F1, F0.
  assert (Hlack : forall caret e, node_at doc p = Some e ->
            ~ has_class "o_group_has_content" e \/ ~ contains_class caret e ->
            ~ header_showing caret doc p).
  { intros caret e He Hno (e' & He' & [_ Hc] & Hr).
    rewrite He in He'. inversion He'; subst e'. destruct Hno; contradiction. }
  split; [now split |]. split; [now split |].
  split; [intros e He Hno; apply U0; exact (Hlack _ e He Hno) |].
  split; [intros e He Hno; apply F0; exact (Hlack _ e He Hno) |].
  split; [| split].
  - intros Hex e He Hh. split.
    + intros Hd. apply U0, (Hlack _ e He). right.
      intros Hr. exact (Hex p e He Hh (conj Hr Hd)).
    + intros Hr. apply F0, (Hlack _ e He). right.
      intros Hd. exact (Hex p e He Hh (conj Hr Hd)).
  - intros Hnone. apply no_target_no_click. intros q Hq. apply (Hnone q).
    now apply In_onUnfoldAllClick.
  - intros Hnone. apply no_target_no_click. intros q Hq. apply (Hnone q).
    now apply In_onFoldAllClick.
Qed.

(** C10. In a document where no group header shows both carets, no node is
    clicked by both [onUnfoldAllClick] and [onFoldAllClick]: the two sets
    of targets are disjoint. *)
Theorem fold_and_unfold_targets_disjoint (doc : Document) :
  carets_exclusive doc ->
  forall p, ~ (In (Click p) (onUnfoldAllClick doc) /\ In (Click p) (onFoldAllClick doc)).
Proof.
  intros Hex p [Hu Hf].
  apply In_onUnfoldAllClick in Hu as (e & He & [Hh _] & Hr).
  apply In_onFoldAllClick in Hf as (e' & He' & _ & Hd).
  rewrite He in He'. inversion He'; subst e'.
  exact (Hex p e He Hh (conj Hr Hd)).
Qed.

(** An instance of C10 on [rendered_list], whose headers show one caret
    each. *)
Lemma fold_and_unfold_targets_disjoint_witness :
  carets_exclusive rendered_list /\
  onUnfoldAllClick rendered_list = [Click [0; 0]%nat] /\
  onFoldAllClick rendered_list = [Click [0; 1]%nat] /\
  ~ (In (Click [0; 0]%nat) (onUnfoldAllClick rendered_list) /\
     In (Click [0; 0]%nat) (onFoldAllClick rendered_list)).
Proof.
  split; [apply carets_exclusiveb_sound; vm_compute; reflexivity |].
  split; [reflexivity |]. split; [reflexivity |].
  apply (fold_and_unfold_targets_disjoint rendered_list).
  apply carets_exclusiveb_sound. vm_compute. reflexivity.
Defined.

(* ================================================================== *)
(** ** Runs of the sync button *)
(* ================================================================== *)

Ltac unfold_services :=
  unfold orm_call, actionService_doAction, notification_add, model_root_load,
    render, bind, call, lift, ret, TemplateSubstitution;
  cbn [app].

Section SyncRuns.

Variable h : Host.

Lemma run_cancel : choice h = Cancel -> run h = ([prompt], Normal tt).
Proof.
  intros Hc. unfold run, OnTestClick, dialogService_add, OnTestClick_cancel.
  unfold_services. cbn [title body confirm cancel]. now rewrite Hc.
Qed.

Lemma run_confirm : choice h = Confirm -> run h = OnTestClick_confirm h [prompt].
Proof.
  intros Hc. unfold run, OnTestClick, dialogService_add.
  unfold_services. cbn [title body confirm cancel]. now rewrite Hc.
Qed.

Lemma confirm_rejected (e : Thrown) :
  orm_reply h "saatchi.accrued_revenue" "sync_new_records_for_accrual" [VArr []] = Throw e ->
  OnTestClick_confirm h [prompt] = ([prompt; sync_call], Throw e).
Proof.
  intros Hr. unfold OnTestClick_confirm. unfold_services. now rewrite Hr.
Qed.

Variable result : Value.
Hypothesis Hreply :
  orm_reply h "saatchi.accrued_revenue" "sync_new_records_for_accrual" [VArr []]
  = Normal result.

Lemma confirm_action :
  ToBoolean (result_and_type result) = true ->
  OnTestClick_confirm h [prompt] =
  match doAction_reply h result with
  | Normal _ => refreshed h [prompt; sync_call; DoAction result]
  | Throw e => ([prompt; sync_call; DoAction result], Throw e)
  end.
Proof.
  intros Ht. unfold OnTestClick_confirm, refreshed. unfold_services.
  rewrite Hreply, Ht. destruct (doAction_reply h result); [| reflexivity].
  now destruct (load_reply h).
Qed.

Lemma confirm_success (count : string) :
  ToBoolean (result_and_type result) = false ->
  GreaterThanZero result = Normal true ->
  ToString result = Normal count ->
  OnTestClick_confirm h [prompt] =
  refreshed h [prompt; sync_call; success_notification count].
Proof.
  intros Ht Hp Hs. unfold OnTestClick_confirm, refreshed. unfold_services.
  rewrite Hreply, Ht, Hp, Hs. now destruct (load_reply h).
Qed.

Lemma confirm_info :
  ToBoolean (result_and_type result) = false ->
  GreaterThanZero result = Normal false ->
  OnTestClick_confirm h [prompt] = refreshed h [prompt; sync_call; info_notification].
Proof.
  intros Ht Hp. unfold OnTestClick_confirm, refreshed. unfold_services.
  rewrite Hreply, Ht, Hp. now destruct (load_reply h).
Qed.

Lemma confirm_comparison_throws (e : Thrown) :
  ToBoolean (result_and_type result) = false ->
  GreaterThanZero result = Throw e ->
  OnTestClick_confirm h [prompt] = ([prompt; sync_call], Throw e).
Proof.
  intros Ht Hp. unfold OnTestClick_confirm. unfold_services.
  now rewrite Hreply, Ht, Hp.
Qed.

End SyncRuns.

(** A value that could be compared with [0] can be printed. *)
Lemma compared_is_printable (v : Value) (b : bool) :
  GreaterThanZero v = Normal b -> exists s, ToString v = Normal s.
Proof.
  unfold GreaterThanZero, ToPrimitive.
  destruct v as [| |[|]|n|s|l|props]; try (intros _; eexists; reflexivity).
  - destruct (ToString (VArr l)) as [s|e]; [now exists s | discriminate].
  - destruct (ToString (VObj props)) as [s|e]; [now exists s | discriminate].
Qed.

(** [result && result.type] is truthy exactly when [result.type] is: a
    falsy [result] has no truthy [type]. *)
Lemma truthy_type_selects (v : Value) :
  ToBoolean (result_and_type v) = ToBoolean (Get_type v).
Proof.
  unfold result_and_type. destruct (ToBoolean v) eqn:Hv; [reflexivity |].
  rewrite Hv. destruct v; try reflexivity; discriminate.
Qed.


(** Every confirmed run starts with the prompt and the remote call, and
    goes on in one of five ways. *)
Lemma confirmed_run_cases (h : Host) :
  choice h = Confirm ->
  (exists e, run h = ([prompt; sync_call], Throw e)) \/
  (exists r, run h = refreshed h [prompt; sync_call; DoAction r]) \/
  (exists r e, run h = ([prompt; sync_call; DoAction r], Throw e)) \/
  (exists count, run h = refreshed h [prompt; sync_call; success_notification count]) \/
  run h = refreshed h [prompt; sync_call; info_notification].
Proof.
  intros Hc. rewrite (run_confirm h Hc).
  destruct (orm_reply h "saatchi.accrued_revenue" "sync_new_records_for_accrual" [VArr []])
    as [r|e] eqn:Hr.
  - destruct (ToBoolean (result_and_type r)) eqn:Ht.
    + rewrite (confirm_action h r Hr Ht). destruct (doAction_reply h r) as [[]|e].
      * right; left. now exists r.
      * right; right; left. now exists r, e.
    + destruct (GreaterThanZero r) as [[|]|e] eqn:Hp.
      * destruct (compared_is_printable r true Hp) as [count Hs].
        right; right; right; left. exists count.
        exact (confirm_success h r Hr count Ht Hp Hs).
      * right; right; right; right. exact (confirm_info h r Hr Ht Hp).
      * left. exists e. exact (confirm_comparison_throws h r Hr e Ht Hp).
  - left. exists e. exact (confirm_rejected h e Hr).
Qed.

(** The refresh adds no event that the filter [f] keeps, when [f] keeps
    neither reloads nor renders. *)
Lemma refreshed_filter (f : Event -> bool) (h : Host) (tr : list Event) :
  f RootLoad = false -> (forall d, f (Render d) = false) ->
  filter f (fst (refreshed h tr)) = filter f tr.
Proof.
  intros H1 H2. unfold refreshed.
  destruct (load_reply h); cbn [fst]; rewrite filter_app; cbn [filter];
    rewrite ?H1, ?H2; apply app_nil_r.
Qed.

(** An integer compares with [0] as on [Z]. *)
Lemma GreaterThanZero_number (n : Z) :
  GreaterThanZero (VNum n) = Normal (0 <? n)%Z.
Proof.
  unfold GreaterThanZero, ToPrimitive, bindC, ToNumber, NumberOfZ,
    Number_isPositive, roundsToZero.
  rewrite Z.ltb_irrefl, andb_false_l, orb_false_r. f_equal.
  destruct n as [|p|p]; reflexivity.
Qed.

(* ================================================================== *)
(** ** The sync button: what a click does *)
(* ================================================================== *)

(** C1, as stated, fails: a result with a [type] is forwarded to the action
    service and the view is then reloaded and re-rendered, as in the other
    branches; the callback has no early return. *)
Lemma action_result_is_followed_by_refresh :
  run (answering (VObj [("type", VStr "ir.actions.act_window")])) =
  ([prompt; sync_call; DoAction (VObj [("type", VStr "ir.actions.act_window")]);
    RootLoad; Render true],
   Normal tt).
Proof. reflexivity. Qed.

(** C1 (amended). After a confirmed remote call that resolves to [r], every
    branch that completes is followed by the refresh (the reload and, once
    it has resolved, the forced re-render): the action branch, taken when
    [r.type] is truthy, once [doAction] has resolved; the success branch;
    and the info branch. *)
Theorem every_completed_branch_refreshes (h : Host) (r : Value) :
  choice h = Confirm ->
  orm_reply h "saatchi.accrued_revenue" "sync_new_records_for_accrual" [VArr []]
  = Normal r ->
  (ToBoolean (Get_type r) = true -> doAction_reply h r = Normal tt ->
   run h = refreshed h [prompt; sync_call; DoAction r]) /\
  (ToBoolean (Get_type r) = false -> GreaterThanZero r = Normal true ->
   exists count, ToString r = Normal count /\
                 run h = refreshed h [prompt; sync_call; success_notification count]) /\
  (ToBoolean (Get_type r) = false -> GreaterThanZero r = Normal false ->
   run h = refreshed h [prompt; sync_call; info_notification]).
Proof.
  intros Hc Hr. rewrite (run_confirm h Hc), <- truthy_type_selects. repeat split.
  - intros Ht Ha. now rewrite (confirm_action h r Hr Ht), Ha.
  - intros Ht Hp. destruct (compared_is_printable r true Hp) as [count Hs].
    exists count. split; [exact Hs | exact (confirm_success h r Hr count Ht Hp Hs)].
  - intros Ht Hp. exact (confirm_info h r Hr Ht Hp).
Qed.

(** C2, as stated, fails: the positional-argument list of the remote call is
    not empty, it holds one argument (the empty list of record ids). *)
Lemma sync_call_passes_one_argument :
  exists args,
    filter isOrmCall (fst (run (answering (VNum 5)))) =
    [OrmCall "saatchi.accrued_revenue" "sync_new_records_for_accrual" args] /\
    List.length args = 1%nat.
Proof. exists [VArr []]. split; reflexivity. Qed.

(** C2 (amended). Every confirmed click issues exactly one remote call,
    whatever the host replies: procedure [sync_new_records_for_accrual] of
    [saatchi.accrued_revenue], with one positional argument, the empty list
    of record ids. *)
Theorem confirm_issues_one_sync_call (h : Host) :
  choice h = Confirm ->
  filter isOrmCall (fst (run h)) =
  [OrmCall "saatchi.accrued_revenue" "sync_new_records_for_accrual" [VArr []]].
Proof.
  intros Hc.
  destruct (confirmed_run_cases h Hc)
    as [(e & ->) | [(r & ->) | [(r & e & ->) | [(count & ->) | ->]]]];
    rewrite ?refreshed_filter by reflexivity; reflexivity.
Qed.

(** C3. When the confirmed remote call resolves to a number [n > 0] (a safe
    integer, so that [`${n}`] is its decimal numeral), exactly one
    notification is shown, of type success, with the message
    "Successfully created n new draft for accrual."; the reload comes after
    it (and the forced re-render after the reload). *)
Theorem positive_count_is_notified (h : Host) (n : Z) :
  choice h = Confirm ->
  orm_reply h "saatchi.accrued_revenue" "sync_new_records_for_accrual" [VArr []]
  = Normal (VNum n) ->
  (0 < n)%Z -> (n <= MAX_SAFE_INTEGER)%Z ->
  run h =
  refreshed h
    [prompt; sync_call;
     NotificationAdd ("Successfully created " ++ NumberToString n ++ " new draft for accrual.")
                     "success" "Success!"] /\
  filter isNotification (fst (run h)) =
  [NotificationAdd ("Successfully created " ++ NumberToString n ++ " new draft for accrual.")
                   "success" "Success!"].
Proof.
  intros Hc Hr Hpos _.
  assert (Hrun : run h = refreshed h [prompt; sync_call; success_notification (NumberToString n)]).
  { rewrite (run_confirm h Hc).
    apply (confirm_success h (VNum n) Hr).
    - now rewrite truthy_type_selects.
    - rewrite GreaterThanZero_number. f_equal. now apply Z.ltb_lt.
    - reflexivity. }
  split; [exact Hrun |].
  rewrite Hrun, refreshed_filter by reflexivity. reflexivity.
Qed.

(** C4 fails on the code: the boolean [true] is neither an object with a
    [type] nor a number, yet [true > 0] holds after coercion, so the success
    notification is shown, with "true" as the count. *)
Theorem boolean_result_is_reported_as_a_count :
  run (answering (VBool true)) =
  ([prompt; sync_call;
    NotificationAdd "Successfully created true new draft for accrual." "success" "Success!";
    RootLoad; Render true],
   Normal tt).
Proof. reflexivity. Qed.

(** C5. When the user cancels, the dialog is all that happened: no remote
    call, no notification, no reload and no re-render. *)
Theorem cancel_does_nothing (h : Host) :
  choice h = Cancel ->
  run h = ([prompt], Normal tt) /\
  filter isOrmCall (fst (run h)) = [] /\
  filter isNotification (fst (run h)) = [] /\
  filter isRefresh (fst (run h)) = [].
Proof.
  intros Hc. rewrite (run_cancel h Hc). repeat split.
Qed.

(** C6, as stated, fails: an object whose [type] field is present but falsy
    (here the empty string) is not handed to the action service, and the
    info notification is shown before the reload. *)
Lemma empty_type_is_not_forwarded :
  run (answering (VObj [("type", VStr "")])) =
  ([prompt; sync_call;
    NotificationAdd "No new records were created for accrual." "info" "Info";
    RootLoad; Render true],
   Normal tt).
Proof. reflexivity. Qed.

(** C6 (amended). When the confirmed remote call resolves to a value [r]
    whose [type] field is truthy, the action service is called once, right
    after the remote call, with [r] itself, and the run shows no
    notification at all (so none before the reload, which follows once
    [doAction] has resolved). *)
Theorem truthy_type_is_forwarded_unchanged (h : Host) (r : Value) :
  choice h = Confirm ->
  orm_reply h "saatchi.accrued_revenue" "sync_new_records_for_accrual" [VArr []]
  = Normal r ->
  ToBoolean (Get_type r) = true ->
  run h = match doAction_reply h r with
          | Normal _ => refreshed h [prompt; sync_call; DoAction r]
          | Throw e => ([prompt; sync_call; DoAction r], Throw e)
          end /\
  filter isDoAction (fst (run h)) = [DoAction r] /\
  filter isNotification (fst (run h)) = [].
Proof.
  intros Hc Hr Ht. rewrite <- truthy_type_selects in Ht.
  rewrite (run_confirm h Hc), (confirm_action h r Hr Ht).
  destruct (doAction_reply h r) as [[]|e];
    rewrite ?refreshed_filter by reflexivity; repeat split.
Qed.

(** C7. When the confirmed remote call is rejected with [e], the callback
    is rejected with the same [e]: nothing catches it.  Nothing follows the
    call: no notification, no reload, no re-render. *)
Theorem remote_rejection_propagates (h : Host) (e : Thrown) :
  choice h = Confirm ->
  orm_reply h "saatchi.accrued_revenue" "sync_new_records_for_accrual" [VArr []]
  = Throw e ->
  run h = ([prompt; sync_call], Throw e) /\
  filter isNotification (fst (run h)) = [] /\
  filter isRefresh (fst (run h)) = [].
Proof.
  intros Hc Hr. rewrite (run_confirm h Hc), (confirm_rejected h e Hr). repeat split.
Qed.



(** Beyond the claims: a confirmed result that is falsy ([undefined],
    [null], [false], [0], the empty string) or a number not greater than
    zero gets exactly one notification, the info one, followed by the
    refresh. *)
Theorem nothing_created_is_reported (h : Host) (r : Value) :
  choice h = Confirm ->
  orm_reply h "saatchi.accrued_revenue" "sync_new_records_for_accrual" [VArr []]
  = Normal r ->
  ToBoolean r = false \/ (exists n, r = VNum n /\ (n <= 0)%Z) ->
  run h = refreshed h [prompt; sync_call; info_notification] /\
  filter isNotification (fst (run h)) =
  [NotificationAdd "No new records were created for accrual." "info" "Info"].
Proof.
  intros Hc Hr Hshape.
  assert (Hrun : run h = refreshed h [prompt; sync_call; info_notification]).
  { rewrite (run_confirm h Hc). apply (confirm_info h r Hr).
    - rewrite truthy_type_selects.
      destruct Hshape as [Hf | (n & -> & _)]; [| reflexivity].
      destruct r; try reflexivity; discriminate.
    - destruct Hshape as [Hf | (n & -> & Hn)].
      + destruct r as [| |[|]|n|s|l|props]; try discriminate; try reflexivity.
        * simpl in Hf. apply negb_false_iff, Z.eqb_eq in Hf. now subst.
        * simpl in Hf. apply negb_false_iff, String.eqb_eq in Hf. now subst.
      + rewrite GreaterThanZero_number. f_equal. now apply Z.ltb_ge. }
  split; [exact Hrun |].
  rewrite Hrun, refreshed_filter by reflexivity. reflexivity.
Qed.

(* ================================================================== *)
(** ** Instances on concrete hosts *)
(* ================================================================== *)

(** C1 (amended) on a wizard action: forwarded, then reload and re-render. *)
Lemma every_completed_branch_refreshes_witness :
  run (answering (VObj [("type", VStr "ir.actions.act_window");
                        ("target", VStr "new")])) =
  ([prompt; sync_call;
    DoAction (VObj [("type", VStr "ir.actions.act_window"); ("target", VStr "new")]);
    RootLoad; Render true],
   Normal tt).
Proof.
  exact (proj1 (every_completed_branch_refreshes
                  (answering (VObj [("type", VStr "ir.actions.act_window");
                                    ("target", VStr "new")]))
                  (VObj [("type", VStr "ir.actions.act_window"); ("target", VStr "new")])
                  eq_refl eq_refl)
               eq_refl eq_refl).
Defined.

(** C2 (amended) on a server that answers [null]. *)
Lemma confirm_issues_one_sync_call_witness :
  filter isOrmCall (fst (run (answering VNull))) =
  [OrmCall "saatchi.accrued_revenue" "sync_new_records_for_accrual" [VArr []]].
Proof.
  exact (confirm_issues_one_sync_call (answering VNull) eq_refl).
Defined.

(** C3 on the count [5]. *)
Lemma positive_count_is_notified_witness :
  run (answering (VNum 5)) =
  ([prompt; sync_call;
    NotificationAdd "Successfully created 5 new draft for accrual." "success" "Success!";
    RootLoad; Render true],
   Normal tt) /\
  filter isNotification (fst (run (answering (VNum 5)))) =
  [NotificationAdd "Successfully created 5 new draft for accrual." "success" "Success!"].
Proof.
  exact (positive_count_is_notified (answering (VNum 5)) 5 eq_refl eq_refl
           ltac:(lia) ltac:(unfold MAX_SAFE_INTEGER; lia)).
Defined.

(** C5 on a user who cancels. *)
Lemma cancel_does_nothing_witness :
  run cancelling = ([prompt], Normal tt) /\
  filter isOrmCall (fst (run cancelling)) = [] /\
  filter isNotification (fst (run cancelling)) = [] /\
  filter isRefresh (fst (run cancelling)) = [].
Proof.
  exact (cancel_does_nothing cancelling eq_refl).
Defined.

(** C6 (amended) on a window action. *)
Lemma truthy_type_is_forwarded_unchanged_witness :
  filter isDoAction
         (fst (run (answering (VObj [("type", VStr "ir.actions.act_window");
                                     ("res_model", VStr "sale.order")])))) =
  [DoAction (VObj [("type", VStr "ir.actions.act_window");
                   ("res_model", VStr "sale.order")])] /\
  filter isNotification
         (fst (run (answering (VObj [("type", VStr "ir.actions.act_window");
                                     ("res_model", VStr "sale.order")])))) = [].
Proof.
  exact (proj2 (truthy_type_is_forwarded_unchanged
                  (answering (VObj [("type", VStr "ir.actions.act_window");
                                    ("res_model", VStr "sale.order")]))
                  (VObj [("type", VStr "ir.actions.act_window");
                         ("res_model", VStr "sale.order")])
                  eq_refl eq_refl eq_refl)).
Defined.

(** C7 on a lost connection. *)
Lemma remote_rejection_propagates_witness :
  run (rejecting (Rejection (VStr "ConnectionLostError"))) =
  ([prompt; sync_call], Throw (Rejection (VStr "ConnectionLostError"))) /\
  filter isNotification (fst (run (rejecting (Rejection (VStr "ConnectionLostError"))))) = [] /\
  filter isRefresh (fst (run (rejecting (Rejection (VStr "ConnectionLostError"))))) = [].
Proof.
  exact (remote_rejection_propagates
           (rejecting (Rejection (VStr "ConnectionLostError")))
           (Rejection (VStr "ConnectionLostError")) eq_refl eq_refl).
Defined.


(** The info notification on the result [0]. *)
Lemma nothing_created_is_reported_witness :
  run (answering (VNum 0)) =
  ([prompt; sync_call;
    NotificationAdd "No new records were created for accrual." "info" "Info";
    RootLoad; Render true],
   Normal tt) /\
  filter isNotification (fst (run (answering (VNum 0)))) =
  [NotificationAdd "No new records were created for accrual." "info" "Info"].
Proof.
  exact (nothing_created_is_reported (answering (VNum 0)) (VNum 0) eq_refl eq_refl
           (or_introl eq_refl)).
Defined.

(* ================================================================== *)
(** ** The sync button: the shape of every run *)
(* ================================================================== *)

(** Case analysis on a run: cancelled, or confirmed and ended in one of the
    five ways of [confirmed_run_cases], the reload resolved or rejected. *)
Ltac by_run_cases h :=
  let Hc := fresh "Hc" in
  destruct (choice h) eqn:Hc;
  [ destruct (confirmed_run_cases h Hc)
      as [(?e & ->) | [(?r & ->) | [(?r & ?e & ->) | [(?count & ->) | ->]]]]
  | rewrite (run_cancel h Hc) ];
  unfold refreshed; try destruct (load_reply h) as [[]|?e] eqn:?Hload;
  cbn [fst snd app].

(** Whatever the user chooses and the host replies, a click shows the
    confirmation dialog first, and once: every other call of the run comes
    after it. *)
Theorem dialog_opens_every_run (h : Host) :
  exists rest, fst (run h) = prompt :: rest /\ filter isDialog rest = [].
Proof.
  by_run_cases h; eexists; split; reflexivity.
Qed.

(** A click shows one notification at most, and only two are possible: the
    info one, and the success one with some count inside the fixed text;
    both carry their own type and title. *)
Theorem at_most_one_notification (h : Host) :
  filter isNotification (fst (run h)) = [] \/
  filter isNotification (fst (run h)) =
    [NotificationAdd "No new records were created for accrual." "info" "Info"] \/
  exists count,
    filter isNotification (fst (run h)) =
    [NotificationAdd ("Successfully created " ++ count ++ " new draft for accrual.")
                     "success" "Success!"].
Proof.
  by_run_cases h; cbn; auto; right; right; eexists; reflexivity.
Qed.

(** A click forwards one action at most, and a run that forwards an action
    shows no notification. *)
Theorem action_excludes_notification (h : Host) :
  (List.length (filter isDoAction (fst (run h))) <= 1)%nat /\
  (filter isDoAction (fst (run h)) = [] \/ filter isNotification (fst (run h)) = []).
Proof.
  by_run_cases h; cbn; auto.
Qed.

(** A re-render is always the forced one, [render(true)]; it happens only
    when the reload has resolved, directly after it, as the last call of a
    run that completes normally.  Conversely a confirmed click that
    completes normally has re-rendered. *)
Theorem render_closes_a_refreshed_run (h : Host) :
  (forall deep, In (Render deep) (fst (run h)) ->
     deep = true /\ load_reply h = Normal tt /\ snd (run h) = Normal tt /\
     exists before, fst (run h) = (before ++ [RootLoad; Render true])%list) /\
  (choice h = Confirm -> snd (run h) = Normal tt -> In (Render true) (fst (run h))).
Proof.
  by_run_cases h; (split; [intros deep Hin | intros Hconfirm Hnormal]);
    cbn in *; try discriminate; try tauto;
    repeat match goal with
      | H : _ \/ _ |- _ => destruct H as [H | H]
      | H : False |- _ => destruct H
      | H : _ = Render _ |- _ => inversion H; clear H; subst
      end;
    try discriminate.
  all: repeat split;
    [ eexists [_; _; _]; reflexivity ].
Qed.

(** When the reload is rejected, a confirmed click never completes
    normally and never re-renders; once the reload has been called, the
    click is rejected with the reload's own error. *)
Theorem failed_reload_rejects_the_click (h : Host) (e : Thrown) :
  choice h = Confirm ->
  load_reply h = Throw e ->
  (exists e', snd (run h) = Throw e') /\
  (In RootLoad (fst (run h)) -> snd (run h) = Throw e) /\
  filter isRender (fst (run h)) = [].
Proof.
  intros Hconfirm Hreload.
  destruct (confirmed_run_cases h Hconfirm)
    as [(e1 & ->) | [(r & ->) | [(r & e1 & ->) | [(count & ->) | ->]]]];
    unfold refreshed; rewrite ?Hreload; cbn;
    (split; [eexists; reflexivity | split; [| reflexivity]]);
    try reflexivity; intros Hin;
    repeat match goal with
      | H : _ \/ _ |- _ => destruct H as [H | H]
      | H : False |- _ => destruct H
      end; discriminate.
Qed.

(** A failed reload after two records were created: the notification has
    been shown, the render is skipped. *)
Lemma failed_reload_rejects_the_click_witness :
  run (failing_reload (VNum 2) (Rejection (VStr "RPCError"))) =
  ([prompt; sync_call;
    NotificationAdd "Successfully created 2 new draft for accrual." "success" "Success!";
    RootLoad],
   Throw (Rejection (VStr "RPCError"))) /\
  (exists e', snd (run (failing_reload (VNum 2) (Rejection (VStr "RPCError")))) = Throw e') /\
  filter isRender (fst (run (failing_reload (VNum 2) (Rejection (VStr "RPCError"))))) = [].
Proof.
  split; [reflexivity |].
  pose proof (failed_reload_rejects_the_click
                (failing_reload (VNum 2) (Rejection (VStr "RPCError")))
                (Rejection (VStr "RPCError")) eq_refl eq_refl) as [Hthrows [_ Hnone]].
  split; [exact Hthrows | exact Hnone].
Defined.

(** A result object without a truthy [type] that has an own [toString]
    property cannot be compared with [0]: the callback is rejected with a
    [TypeError] right after the remote call, with no notification and no
    refresh. *)
Theorem own_toString_rejects_the_click (h : Host) (props : list (string * Value)) :
  choice h = Confirm ->
  orm_reply h "saatchi.accrued_revenue" "sync_new_records_for_accrual" [VArr []]
  = Normal (VObj props) ->
  ToBoolean (Get_type (VObj props)) = false ->
  HasOwnProperty props "toString" = true ->
  exists message, run h = ([prompt; sync_call], Throw (TypeError message)).
Proof.
  intros Hconfirm Hreply Htype Hown. rewrite <- truthy_type_selects in Htype.
  rewrite (run_confirm h Hconfirm). eexists.
  apply (confirm_comparison_throws h (VObj props) Hreply _ Htype).
  unfold GreaterThanZero, ToPrimitive. simpl. rewrite Hown. reflexivity.
Qed.

(** The record [{name: "x", toString: null}] as result. *)
Lemma own_toString_rejects_the_click_witness :
  exists message,
    run (answering (VObj [("name", VStr "x"); ("toString", VNull)])) =
    ([prompt; sync_call], Throw (TypeError message)).
Proof.
  exact (own_toString_rejects_the_click
           (answering (VObj [("name", VStr "x"); ("toString", VNull)]))
           [("name", VStr "x"); ("toString", VNull)] eq_refl eq_refl eq_refl eq_refl).
Defined.

(* ================================================================== *)
(** ** The fold buttons: order and coverage of the clicks *)
(* ================================================================== *)

Lemma precedes_app (pre a b : Path) : precedes (pre ++ a)%list (pre ++ b)%list = precedes a b.
Proof.
  induction pre as [|i pre IH]; [reflexivity |].
  cbn [app precedes]. now rewrite Nat.ltb_irrefl, Nat.eqb_refl, IH.
Qed.

Lemma precedes_descendant (pre : Path) (k : nat) (q : Path) :
  precedes pre (pre ++ k :: q)%list = true.
Proof.
  rewrite <- (app_nil_r pre) at 1. now rewrite precedes_app.
Qed.

Lemma precedes_later_sibling (pre : Path) (i k : nat) (q q' : Path) :
  precedes (pre ++ i :: q)%list (pre ++ (S i + k)%nat :: q')%list = true.
Proof.
  rewrite precedes_app. cbn [precedes].
  assert (H : (i <? S i + k)%nat = true) by (apply Nat.ltb_lt; lia).
  now rewrite H.
Qed.

Lemma StronglySorted_app {A} (R : A -> A -> Prop) (l1 l2 : list A) :
  StronglySorted R l1 -> StronglySorted R l2 ->
  (forall a b, In a l1 -> In b l2 -> R a b) ->
  StronglySorted R (l1 ++ l2)%list.
Proof.
  induction l1 as [|x l1 IH]; intros H1 H2 Hcross; [exact H2 |].
  apply StronglySorted_inv in H1 as [H1 Hx]. cbn [app]. constructor.
  - apply IH; auto. intros a b Ha Hb. apply Hcross; [now right | exact Hb].
  - apply Forall_app. split; [exact Hx |].
    apply Forall_forall. intros b Hb. apply Hcross; [now left | exact Hb].
Qed.

Local Notation "'in_order'" := (fun p q : Path => precedes p q = true) (only parsing).

Lemma in_order_forest (l : list Element) :
  Forall (fun x => forall pre, StronglySorted in_order (map fst (subtree pre x))) l ->
  forall (pre : Path) (i : nat), StronglySorted in_order (map fst (forest pre i l)).
Proof.
  induction 1 as [|c l Hc _ IH]; intros pre i; simpl forest.
  - constructor.
  - rewrite map_app. apply StronglySorted_app; [apply Hc | apply IH |].
    intros a b Ha Hb. apply In_map_fst in Ha as (e & He), Hb as (e' & He').
    apply subtree_lists_all in He. apply In_forest_from in He' as (k & q' & -> & _).
    destruct He as [[-> _] | (q & -> & _)].
    + apply precedes_later_sibling.
    + rewrite <- app_assoc. apply precedes_later_sibling.
Qed.

Lemma in_order_subtree (x : Element) (pre : Path) :
  StronglySorted in_order (map fst (subtree pre x)).
Proof.
  revert pre. induction x as [cl cs IH] using Element_nested_ind. intros pre.
  rewrite subtree_unfold. cbn [map fst children]. constructor.
  - now apply in_order_forest.
  - apply Forall_forall. intros b Hb. apply In_map_fst in Hb as (e & He).
    apply In_forest_from in He as (k & q & -> & _). apply precedes_descendant.
Qed.

Lemma in_order_map_filter {A} (f : A -> Path) (g : A -> bool) (l : list A) :
  StronglySorted in_order (map f l) -> StronglySorted in_order (map f (filter g l)).
Proof.
  induction l as [|a l IH]; cbn [map filter]; intros H; [constructor |].
  apply StronglySorted_inv in H as [H Ha]. destruct (g a); cbn [map]; auto.
  constructor; auto. rewrite Forall_forall in *. intros b Hb. apply Ha.
  apply in_map_iff in Hb as (x & <- & Hx). apply in_map.
  now apply filter_In in Hx as [Hx _].
Qed.

Lemma in_order_clicks (caret : string) (doc : Document) :
  StronglySorted in_order
    (map target
       (forEach_click
          (filter (fun header => truthy (querySelector [caret] header))
             (document_querySelectorAll ["o_group_header"; "o_group_has_content"] doc)))).
Proof.
  unfold forEach_click, document_querySelectorAll. rewrite map_map. cbn [target].
  do 2 apply in_order_map_filter.
  apply in_order_forest, Forall_forall. intros; apply in_order_subtree.
Qed.

(** Both handlers dispatch their clicks in document order: each target
    precedes all the later ones. *)
Theorem clicks_follow_document_order (doc : Document) :
  StronglySorted (fun p q => precedes p q = true) (map target (onUnfoldAllClick doc)) /\
  StronglySorted (fun p q => precedes p q = true) (map target (onFoldAllClick doc)).
Proof.
  split; apply in_order_clicks.
Qed.

Lemma filter_split_length {A} (f g : A -> bool) (l : list A) :
  (forall x, In x l -> f x = negb (g x)) ->
  (List.length (filter f l) + List.length (filter g l) = List.length l)%nat.
Proof.
  induction l as [|a l IH]; intros H; [reflexivity |].
  cbn [filter]. rewrite (H a (or_introl eq_refl)).
  assert (IH' := IH (fun x Hx => H x (or_intror Hx))).
  destruct (g a); cbn [negb List.length]; lia.
Qed.

(** A header listed by the first query is a node of the document with both
    classes. *)
Lemma In_groupHeaders (doc : Document) (p : Path) (e : Element) :
  In (p, e) (document_querySelectorAll ["o_group_header"; "o_group_has_content"] doc) <->
  node_at doc p = Some e /\ group_header_with_content e.
Proof.
  unfold document_querySelectorAll. rewrite filter_In, In_forest. cbn [snd app].
  rewrite group_header_matches. split.
  - intros [(q & -> & Hq) Hg]. now split.
  - intros [Hp Hg]. split; [now exists p | exact Hg].
Qed.

Lemma one_caret_eachb_sound (doc : Document) :
  one_caret_eachb doc = true -> one_caret_each doc.
Proof.
  unfold one_caret_eachb, one_caret_each. rewrite forallb_forall.
  intros H p e Hp Hg.
  assert (Hin := proj2 (In_groupHeaders doc p e) (conj Hp Hg)).
  apply H in Hin.
  pose proof (querySelector_truthy "fa-caret-right" p e) as Hr.
  pose proof (querySelector_truthy "fa-caret-down" p e) as Hd.
  destruct (truthy (querySelector ["fa-caret-right"] (p, e)));
    destruct (truthy (querySelector ["fa-caret-down"] (p, e)));
    try discriminate; split.
  - left. now apply Hr.
  - intros [_ Hboth]. apply Hd in Hboth. discriminate.
  - right. now apply Hd.
  - intros [Hboth _]. apply Hr in Hboth. discriminate.
Qed.

(** In a document where every group header with content shows exactly one
    of the two carets, the two handlers share out these headers: each gets
    one click from exactly one of them, and together they dispatch as many
    clicks as the first query finds headers. *)
Theorem buttons_share_out_the_headers (doc : Document) :
  one_caret_each doc ->
  (List.length (onUnfoldAllClick doc) + List.length (onFoldAllClick doc) =
   List.length (document_querySelectorAll ["o_group_header"; "o_group_has_content"] doc))%nat /\
  (forall p e, node_at doc p = Some e -> group_header_with_content e ->
               (clicks_on p (onUnfoldAllClick doc) + clicks_on p (onFoldAllClick doc) = 1)%nat).
Proof.
  intros Hone. split.
  - unfold onUnfoldAllClick, onFoldAllClick, forEach_click.
    rewrite !length_map. apply filter_split_length.
    intros [p e] Hin. apply In_groupHeaders in Hin as [Hp Hg].
    destruct (Hone p e Hp Hg) as [Hsome Hnot].
    pose proof (querySelector_truthy "fa-caret-right" p e) as Hr.
    pose proof (querySelector_truthy "fa-caret-down" p e) as Hd.
    destruct (truthy (querySelector ["fa-caret-right"] (p, e)));
      destruct (truthy (querySelector ["fa-caret-down"] (p, e))); try reflexivity.
    + exfalso. apply Hnot. split; [now apply Hr | now apply Hd].
    + exfalso. destruct Hsome as [Hc | Hc]; [apply Hr in Hc | apply Hd in Hc]; discriminate.
  - intros p e Hp Hg. destruct (Hone p e Hp Hg) as [Hsome Hnot].
    pose proof (clicks_on_NoDup (onUnfoldAllClick doc) p (NoDup_clicks _ doc)) as [U1 U0].
    pose proof (clicks_on_NoDup (onFoldAllClick doc) p (NoDup_clicks _ doc)) as [F1 F0].
    rewrite In_onUnfoldAllClick in U1, U0. rewrite In_onFoldAllClick in F1, F0.
    assert (Hshow : forall caret, header_showing caret doc p <-> contains_class caret e).
    { intros caret. split.
      - intros (e' & He' & _ & Hc). rewrite Hp in He'. now inversion He'; subst.
      - intros Hc. now exists e. }
    destruct Hsome as [Hc | Hc].
    + rewrite U1 by now apply Hshow. rewrite F0; [reflexivity |].
      intros Hd. apply Hshow in Hd. now apply Hnot.
    + rewrite F1 by now apply Hshow. rewrite U0; [reflexivity |].
      intros Hr. apply Hshow in Hr. now apply Hnot.
Qed.

(** On [rendered_list]: one folded and one unfolded header with content. *)
Lemma buttons_share_out_the_headers_witness :
  one_caret_each rendered_list /\
  (List.length (onUnfoldAllClick rendered_list) + List.length (onFoldAllClick rendered_list) =
   List.length (document_querySelectorAll ["o_group_header"; "o_group_has_content"]
                                          rendered_list))%nat.
Proof.
  split; [apply one_caret_eachb_sound; vm_compute; reflexivity |].
  apply (buttons_share_out_the_headers rendered_list).
  apply one_caret_eachb_sound. vm_compute. reflexivity.
Defined.

(** A node is clicked by both handlers exactly when it is a group header
    with content that contains both carets. *)
Theorem targets_of_both_buttons (doc : Document) (p : Path) :
  In (Click p) (onUnfoldAllClick doc) /\ In (Click p) (onFoldAllClick doc) <->
  exists e, node_at doc p = Some e /\ group_header_with_content e /\
            contains_class "fa-caret-right" e /\ contains_class "fa-caret-down" e.
Proof.
  rewrite In_onUnfoldAllClick, In_onFoldAllClick. split.
  - intros [(e & He & Hg & Hr) (e' & He' & _ & Hd)].
    rewrite He in He'. inversion He'; subst e'. now exists e.
  - intros (e & He & Hg & Hr & Hd). split; now exists e.
Qed.

(* ================================================================== *)
(** ** The exported view descriptors *)
(* ================================================================== *)

Section SpreadFacts.

Context {V : Type}.

Lemma Get_CreateDataProperty (o : Obj V) (key : string) (v : V) (k : string) :
  Get (CreateDataProperty o key v) k = if String.eqb key k then Some v else Get o k.
Proof.
  induction o as [|[k' v'] o IH]; cbn [CreateDataProperty Get].
  - reflexivity.
  - destruct (String.eqb k' key) eqn:Hk; cbn [Get].
    + apply String.eqb_eq in Hk. subst k'. now destruct (String.eqb key k).
    + destruct (String.eqb k' k) eqn:Hk'; [| exact IH].
      apply String.eqb_eq in Hk'. subst k'. now rewrite String.eqb_sym, Hk.
Qed.

Lemma CreateDataProperty_new (o : Obj V) (key : string) (v : V) :
  ~ In key (ownKeys o) -> CreateDataProperty o key v = (o ++ [(key, v)])%list.
Proof.
  induction o as [|[k' v'] o IH]; cbn [CreateDataProperty ownKeys map fst app In];
    intros Hnew; [reflexivity |].
  destruct (String.eqb k' key) eqn:Hk.
  - apply String.eqb_eq in Hk. tauto.
  - f_equal. apply IH. tauto.
Qed.

Lemma ownKeys_CreateDataProperty_old (o : Obj V) (key : string) (v : V) :
  In key (ownKeys o) -> ownKeys (CreateDataProperty o key v) = ownKeys o.
Proof.
  induction o as [|[k' v'] o IH]; cbn [CreateDataProperty ownKeys map fst In];
    intros Hold; [contradiction |].
  destruct (String.eqb k' key) eqn:Hk; [reflexivity |].
  cbn [map fst]. f_equal. apply IH. destruct Hold as [-> | Hold]; [| exact Hold].
  now rewrite String.eqb_refl in Hk.
Qed.

(** Copying an object with distinct keys onto an object that has none of
    them appends it. *)
Lemma CopyDataProperties_fresh (source target : Obj V) :
  NoDup (ownKeys (target ++ source)%list) ->
  CopyDataProperties target source = (target ++ source)%list.
Proof.
  unfold CopyDataProperties. revert target.
  induction source as [|[k v] source IH]; intros target Hnd; cbn [fold_left fst snd].
  - now rewrite app_nil_r.
  - rewrite CreateDataProperty_new.
    + rewrite IH; rewrite <- app_assoc; [reflexivity | exact Hnd].
    + unfold ownKeys in *. rewrite map_app in Hnd. cbn [map fst] in Hnd.
      apply NoDup_remove_2 in Hnd. intros Hin. apply Hnd, in_or_app. now left.
Qed.

End SpreadFacts.

(** The descriptor each file registers, [{ ...listView, Controller: C }]:
    its [Controller] is [C], every other property is read as on [listView],
    and the properties keep the order of [listView] ([Controller] in its
    place when [listView] has one, last otherwise). *)
Theorem custom_view_overrides_only_the_controller
  (V : Type) (listView : Obj V) (controller : V) :
  NoDup (ownKeys listView) ->
  Get (customListController listView controller) "Controller" = Some controller /\
  (forall key, key <> "Controller" ->
               Get (customListController listView controller) key = Get listView key) /\
  (In "Controller" (ownKeys listView) ->
   ownKeys (customListController listView controller) = ownKeys listView) /\
  (~ In "Controller" (ownKeys listView) ->
   ownKeys (customListController listView controller) =
   (ownKeys listView ++ ["Controller"])%list).
Proof.
  intros Hnd. unfold customListController.
  rewrite (CopyDataProperties_fresh listView []) by exact Hnd. cbn [app].
  split; [| split; [| split]].
  - now rewrite Get_CreateDataProperty, String.eqb_refl.
  - intros key Hkey. rewrite Get_CreateDataProperty.
    destruct (String.eqb "Controller" key) eqn:Hk; [| reflexivity].
    apply String.eqb_eq in Hk. congruence.
  - apply ownKeys_CreateDataProperty_old.
  - intros Hnew. rewrite CreateDataProperty_new by exact Hnew.
    unfold ownKeys. now rewrite map_app.
Qed.

(** On [sample_listView]. *)
Lemma custom_view_overrides_only_the_controller_witness :
  customListController sample_listView "UnfoldAllListController" =
  [("type", "list"); ("Controller", "UnfoldAllListController");
   ("Renderer", "ListRenderer"); ("buttonTemplate", "web.ListView.Buttons")] /\
  Get (customListController sample_listView "UnfoldAllListController") "Controller"
  = Some "UnfoldAllListController" /\
  Get (customListController sample_listView "UnfoldAllListController") "Renderer"
  = Get sample_listView "Renderer".
Proof.
  split; [reflexivity |].
  assert (Hnd : NoDup (ownKeys sample_listView)).
  { repeat constructor; cbn; intuition discriminate. }
  pose proof (custom_view_overrides_only_the_controller
                string sample_listView "UnfoldAllListController" Hnd)
    as [Hcontroller [Hother _]].
  split; [exact Hcontroller | apply Hother; discriminate].
Defined.
